(** * jit_profiling.ipynb: the [jax.jit] profiling notebook

    A shallow embedding of the notebook's code cells.  The notebook is a
    straight-line script that talks to four outside parties: the Python
    runtime ([gc], [time], [print]), [psutil], the JAX array library
    ([jnp.ones], [jnp.dot], [block_until_ready]) and the compiling
    wrapper [jax.jit].  Each of them is modelled as a primitive of a small
    reader/state/error monad; what the outside world decides (clock and
    memory readings, the platform name, device failures, the compiler) is
    read from an environment record. *)

From Stdlib Require Import ZArith List String Lia Bool.
From Stdlib Require Import Floats.SpecFloat.
From stdpp Require Import gmap strings list.

(** ** Python values *)

(** Python's [float] is IEEE binary64; JAX's [float32] is binary32.  Both
    are [spec_float]s, operated on at the precision of their format. *)
Inductive dtype := float32 | float64.

#[global] Instance dtype_eq_dec : EqDecision dtype.
Proof. solve_decision. Defined.

#[global] Instance dtype_countable : Countable dtype.
Proof.
  refine (inj_countable' (fun d => match d with float32 => false | float64 => true end)
                         (fun b : bool => if b then float64 else float32) _).
  intros []; reflexivity.
Defined.

Definition dtype_prec (d : dtype) : Z :=
  match d with float32 => 24%Z | float64 => 53%Z end.

Definition dtype_emax (d : dtype) : Z :=
  match d with float32 => 128%Z | float64 => 1024%Z end.

Module Float.
Definition zero : spec_float := S754_zero false.
Definition add (d : dtype) := SFadd (dtype_prec d) (dtype_emax d).
Definition sub (d : dtype) := SFsub (dtype_prec d) (dtype_emax d).
Definition mul (d : dtype) := SFmul (dtype_prec d) (dtype_emax d).
Definition div (d : dtype) := SFdiv (dtype_prec d) (dtype_emax d).
(** The float of format [d] nearest to the integer [z]. *)
Definition of_Z (d : dtype) (z : Z) : spec_float :=
  binary_normalize (dtype_prec d) (dtype_emax d) z 0%Z false.
Definition is_negative (f : spec_float) : bool := SFltb f zero.
End Float.

(** Python's [a / b]: on a [float] and an [int] the [int] is converted
    first; on two [int]s the quotient is the correctly rounded one, which
    for operands below 2^53 is the quotient of the two conversions. *)
Definition py_sub (a b : spec_float) : spec_float := Float.sub float64 a b.
Definition py_truediv (a b : spec_float) : spec_float := Float.div float64 a b.
Definition py_int_truediv (a b : Z) : spec_float :=
  py_truediv (Float.of_Z float64 a) (Float.of_Z float64 b).

Inductive exn :=
| TypeError (msg : string)
| XlaRuntimeError (msg : string).

Inductive result (A : Type) :=
| Ok (a : A)
| Raise (e : exn).
Arguments Ok {A} a.
Arguments Raise {A} e.

(** ** Arrays *)

(** A two-dimensional JAX array.  JAX arrays are immutable: no operation
    below changes one. *)
Record array := mkArray {
  shape : nat * nat;
  arr_dtype : dtype;
  data : list (list spec_float)
}.

Definition signature := list (nat * nat * dtype).

Definition signature_of (args : list array) : signature :=
  map (fun a => (shape a, arr_dtype a)) args.

Module jnp.
Definition full (sh : nat * nat) (d : dtype) (v : spec_float) : array :=
  {| shape := sh; arr_dtype := d; data := repeat (repeat v (snd sh)) (fst sh) |}.

(** [jnp.ones(shape, dtype=d)] *)
Definition ones (sh : nat * nat) (d : dtype) : array :=
  full sh d (Float.of_Z d 1%Z).

Definition promote (a b : dtype) : dtype :=
  match a, b with float32, float32 => float32 | _, _ => float64 end.

Definition column (j : nat) (rows : list (list spec_float)) : list spec_float :=
  map (fun r => nth j r Float.zero) rows.

Definition columns (m : nat) (rows : list (list spec_float)) : list (list spec_float) :=
  map (fun j => column j rows) (seq 0 m).

(** The inner product of a row and a column, accumulated from the left
    in the arithmetic of format [d].  (The library does not fix the order
    of the additions; see [any_order_of_ones] for the notebook's inputs.) *)
Definition inner (d : dtype) (row col : list spec_float) : spec_float :=
  fold_left (fun acc p => Float.add d acc (Float.mul d (fst p) (snd p)))
            (combine row col) Float.zero.

(** [jnp.dot(x, y)] on two matrices: the contracted dimensions must
    agree, otherwise a [TypeError] is raised. *)
Definition dot (x y : array) : result array :=
  if decide (snd (shape x) = fst (shape y)) then
    let d := promote (arr_dtype x) (arr_dtype y) in
    Ok {| shape := (fst (shape x), snd (shape y));
          arr_dtype := d;
          data := map (fun row => map (inner d row)
                                      (columns (snd (shape y)) (data y)))
                      (data x) |}
  else Raise (TypeError "dot_general requires contracting dimensions to have the same shape").
End jnp.

(** ** The compiling wrapper *)

(** A Python function on arrays, and a compiled executable: both take the
    argument tuple and return an array or raise. *)
Definition pyfn := list array -> result array.
Definition artifact := list array -> result array.

Module Jit.
(** Modelled from the spec: [jax.jit] is library code that is not part of
    the notebook.  Following the notebook's introduction ("Compiles your
    function the first time it runs. Caches the compiled version for
    reuse with the same input shapes/dtypes") and the spec's design note,
    the wrapper is a mapping from an argument signature (the tuple of
    shapes and element types) to a compiled executable, filled on a miss
    and never evicted. *)
Record jitted := mkJitted {
  wrapped : pyfn;
  cache : gmap signature artifact
}.

(** Modelled from the spec: the two ways a call through the wrapper can
    go, "compile-then-execute" on the first call with a signature and
    "execute a precompiled artifact directly" on later ones. *)
Inductive path := Compiled | Reused.

(** Modelled from the spec: [build_cached(fn)], in the notebook
    [jax.jit(f)]: a fresh wrapper, its cache empty. *)
Definition jit (f : pyfn) : jitted :=
  {| wrapped := f; cache := ∅ |}.

(** Modelled from the spec: one call through the wrapper, "compile on
    miss and no eviction": which path was taken, the executable that runs,
    and the wrapper afterwards. *)
Definition lookup_or_compile (compile : pyfn -> signature -> artifact)
           (j : jitted) (args : list array) : path * artifact * jitted :=
  let s := signature_of args in
  match cache j !! s with
  | Some a => (Reused, a, j)
  | None =>
      let a := compile (wrapped j) s in
      (Compiled, a, {| wrapped := wrapped j; cache := <[s := a]> (cache j) |})
  end.


End Jit.

(** ** The outside world *)

Inductive pyobj :=
| PStr (s : string)
| PFloat (f : spec_float).

Inductive callee :=
| Direct (name : string)
| Wrapper (h : nat).

(** What the script does to the outside world, one event per step. *)
Inductive event :=
| EvPrint (line : list pyobj)
| EvDisplay (markdown : string)
| EvGcCollect
| EvRss (bytes : Z)
| EvTime (t : spec_float)
| EvOnes (sh : nat * nat) (d : dtype)
| EvJit (h : nat)
| EvCall (c : callee) (args : list array)
| EvCompile (h : nat) (s : signature)
| EvReuse (h : nat) (s : signature)
| EvBlockUntilReady (a : array).

(** What the outside world decides. *)
Record env := mkEnv {
  (** [jax.extend.backend.get_backend().platform] *)
  platform : string;
  (** the n-th reading of [time.time()], the wall clock *)
  wall_clock : nat -> spec_float;
  (** the n-th reading of [psutil.Process(pid).memory_info().rss] *)
  rss_bytes : nat -> Z;
  (** whether the n-th computation handed to the device fails, and how *)
  device_fault : nat -> option exn;
  (** the compiler behind [jax.jit] *)
  xla_compile : pyfn -> signature -> artifact
}.

Record world := mkWorld {
  time_reads : nat;
  rss_reads : nat;
  launches : nat;
  jit_store : list Jit.jitted;
  (** newest event first *)
  log : list event
}.

Definition world0 : world :=
  {| time_reads := 0; rss_reads := 0; launches := 0; jit_store := []; log := [] |}.

Definition history (w : world) : list event := rev (log w).

Definition printed (e : event) : option (list pyobj) :=
  match e with EvPrint l => Some l | _ => None end.

(** Standard output: one line per [print]. *)
Definition stdout (w : world) : list (list pyobj) := omap printed (history w).

Definition shown (e : event) : option string :=
  match e with EvDisplay s => Some s | _ => None end.

(** The rich outputs of the cells (the value of a cell's last expression). *)
Definition displayed (w : world) : list string := omap shown (history w).

(** ** The monad of cells *)

Definition M (A : Type) : Type := env -> world -> result A * world.

Definition ret {A} (a : A) : M A := fun _ w => (Ok a, w).

Definition bind {A B} (m : M A) (k : A -> M B) : M B :=
  fun ev w =>
    match m ev w with
    | (Ok a, w') => k a ev w'
    | (Raise e, w') => (Raise e, w')
    end.

Notation "'let*' x ':=' m 'in' k" := (bind m (fun x => k))
  (at level 10, x pattern, m at level 100, k at level 200).
Notation "m ';;' k" := (bind m (fun _ => k))
  (at level 100, k at level 200, right associativity).

Definition emit (e : event) : M unit :=
  fun _ w =>
    (Ok tt, {| time_reads := time_reads w; rss_reads := rss_reads w;
               launches := launches w; jit_store := jit_store w;
               log := e :: log w |}).

Definition print (line : list pyobj) : M unit := emit (EvPrint line).

Definition display (markdown : string) : M unit := emit (EvDisplay markdown).

Definition get_platform : M string := fun ev w => (Ok (platform ev), w).

Definition gc_collect : M unit := emit EvGcCollect.

Definition time_time : M spec_float :=
  fun ev w =>
    let t := wall_clock ev (time_reads w) in
    (Ok t, {| time_reads := S (time_reads w); rss_reads := rss_reads w;
              launches := launches w; jit_store := jit_store w;
              log := EvTime t :: log w |}).

Definition memory_info_rss : M Z :=
  fun ev w =>
    let r := rss_bytes ev (rss_reads w) in
    (Ok r, {| time_reads := time_reads w; rss_reads := S (rss_reads w);
              launches := launches w; jit_store := jit_store w;
              log := EvRss r :: log w |}).

Definition jnp_ones (sh : nat * nat) (d : dtype) : M array :=
  emit (EvOnes sh d) ;; ret (jnp.ones sh d).

(** A computation handed to the device yields its value unless the device
    fails (out of memory, runtime error). *)
Definition launch (r : result array) : M array :=
  fun ev w =>
    let w' := {| time_reads := time_reads w; rss_reads := rss_reads w;
                 launches := S (launches w); jit_store := jit_store w;
                 log := log w |} in
    match device_fault ev (launches w) with
    | Some e => (Raise e, w')
    | None => (r, w')
    end.

(** A direct call of a plain function on an argument tuple. *)
Definition call_direct (name : string) (f : pyfn) (args : list array) : M array :=
  emit (EvCall (Direct name) args) ;; launch (f args).

(** [jax.jit(f)]: a new wrapper object; the script holds a reference. *)
Definition jax_jit (f : pyfn) : M nat :=
  fun _ w =>
    let h := length (jit_store w) in
    (Ok h, {| time_reads := time_reads w; rss_reads := rss_reads w;
              launches := launches w;
              jit_store := jit_store w ++ [Jit.jit f];
              log := EvJit h :: log w |}).

Definition cache_event (p : Jit.path) (h : nat) (s : signature) : event :=
  match p with Jit.Compiled => EvCompile h s | Jit.Reused => EvReuse h s end.

(** A call through the wrapper that [h] refers to; the wrapper object is
    updated in place. *)
Definition call_wrapper (h : nat) (args : list array) : M array :=
  emit (EvCall (Wrapper h) args) ;;
  fun ev w =>
    match jit_store w !! h with
    | None => (Raise (TypeError "object is not callable"), w)
    | Some j =>
        let '(p, a, j') := Jit.lookup_or_compile (xla_compile ev) j args in
        launch (a args) ev
               {| time_reads := time_reads w; rss_reads := rss_reads w;
                  launches := launches w;
                  jit_store := <[h := j']> (jit_store w);
                  log := cache_event p h (signature_of args) :: log w |}
    end.

(** [a.block_until_ready()]: wait until the value is there, return it. *)
Definition block_until_ready (a : array) : M array :=
  emit (EvBlockUntilReady a) ;; ret a.

(** ** The notebook *)

(** Cell 1: the imports, then the device line. *)
Definition cell_1 : M unit :=
  let* p := get_platform in
  print [PStr "JAX Device:"; PStr p].

(** Cell 2: the memory helper, [rss / 1024 / 1024], in MB. *)
Definition get_memory_usage_mb : M spec_float :=
  let* rss := memory_info_rss in
  ret (py_truediv (py_int_truediv rss 1024) (Float.of_Z float64 1024)).

(** Cell 3: the function under test and its inputs. *)
Definition matmul : pyfn :=
  fun args =>
    match args with
    | [x; y] => jnp.dot x y
    | _ => Raise (TypeError "matmul() takes 2 positional arguments")
    end.

Definition size : nat := 2048.

Definition cell_3 : M (array * array) :=
  let* x := jnp_ones (size, size) float32 in
  let* y := jnp_ones (size, size) float32 in
  ret (x, y).

(** Cell 4: profile the un-jitted execution. *)
Definition cell_4 (x y : array) : M array :=
  gc_collect ;;
  let* start_mem := get_memory_usage_mb in
  let* start_time := time_time in
  let* r := call_direct "matmul" matmul [x; y] in
  let* out := block_until_ready r in
  let* end_time := time_time in
  let* end_mem := get_memory_usage_mb in
  print [PStr "Un-JITed Execution Time:"; PFloat (py_sub end_time start_time); PStr "seconds"] ;;
  print [PStr "Memory Usage:"; PFloat (py_sub end_mem start_mem); PStr "MB"] ;;
  ret out.

(** Cell 5: profile the first call through the wrapper. *)
Definition cell_5 (x y : array) : M (nat * array) :=
  gc_collect ;;
  let* jit_matmul := jax_jit matmul in
  let* start_mem := get_memory_usage_mb in
  let* start_time := time_time in
  let* r := call_wrapper jit_matmul [x; y] in
  let* out := block_until_ready r in
  let* end_time := time_time in
  let* end_mem := get_memory_usage_mb in
  print [PStr "JITed (First Call) Execution Time:"; PFloat (py_sub end_time start_time); PStr "seconds"] ;;
  print [PStr "Memory Usage:"; PFloat (py_sub end_mem start_mem); PStr "MB"] ;;
  ret (jit_matmul, out).

(** Cell 6: profile the second call through the same wrapper. *)
Definition cell_6 (jit_matmul : nat) (x y : array) : M array :=
  gc_collect ;;
  let* start_mem := get_memory_usage_mb in
  let* start_time := time_time in
  let* r := call_wrapper jit_matmul [x; y] in
  let* out := block_until_ready r in
  let* end_time := time_time in
  let* end_mem := get_memory_usage_mb in
  print [PStr "JITed (Second Call) Execution Time:"; PFloat (py_sub end_time start_time); PStr "seconds"] ;;
  print [PStr "Memory Usage:"; PFloat (py_sub end_mem start_mem); PStr "MB"] ;;
  ret out.

(** Cell 7: the interpretation, the cell's value, shown as Markdown. *)
Definition interpretation : string :=
"
### 📊 Interpretation

- **First JIT Run** shows **high latency** due to compilation.
- **Second JIT Run** is **significantly faster**, demonstrating `jit`'s value for repeated execution.
- Memory usage differences can vary by platform (TPU vs GPU vs CPU) and compilation artifacts.

**💡 Tip**: Use `jax.jit` only for functions that run multiple times to amortize compilation cost.
".

Definition cell_7 : M unit := display interpretation.

(** The names the notebook has bound when it ends. *)
Record globals := mkGlobals {
  g_x : array;
  g_y : array;
  g_jit_matmul : nat;
  g_out : array
}.

(** The cells, run top to bottom. *)
Definition notebook : M globals :=
  cell_1 ;;
  let* (x, y) := cell_3 in
  let* out := cell_4 x y in
  let* (jit_matmul, out) := cell_5 x y in
  let* out := cell_6 jit_matmul x y in
  cell_7 ;;
  ret {| g_x := x; g_y := y; g_jit_matmul := jit_matmul; g_out := out |}.

(** ** Describing a run *)

(** What the [n]-th computation handed to the device yields. *)
Definition attempt (ev : env) (n : nat) (r : result array) : result array :=
  match device_fault ev n with
  | Some e => Raise e
  | None => r
  end.

(** [rss / 1024 / 1024] *)
Definition megabytes (rss : Z) : spec_float :=
  py_truediv (py_int_truediv rss 1024) (Float.of_Z float64 1024).

(** The world after [evs] (oldest first) happened, with the counters moved. *)
Definition advance (w : world) (dt dr dl : nat) (store : list Jit.jitted)
           (evs : list event) : world :=
  {| time_reads := dt + time_reads w; rss_reads := dr + rss_reads w;
     launches := dl + launches w; jit_store := store;
     log := rev evs ++ log w |}.

Definition time_line (label : string) (t0 t1 : spec_float) : list pyobj :=
  [PStr label; PFloat (py_sub t1 t0); PStr "seconds"].

Definition memory_line (m0 m1 : Z) : list pyobj :=
  [PStr "Memory Usage:"; PFloat (py_sub (megabytes m1) (megabytes m0)); PStr "MB"].

(** The events of a measurement from its first memory sample up to the
    call, when [nr] memory and [nt] clock readings were taken before. *)
Definition opening (ev : env) (nr nt : nat) (c : callee) (x y : array) : list event :=
  [EvRss (rss_bytes ev nr); EvTime (wall_clock ev nt); EvCall c [x; y]].

(** The events from the blocking wait to the two printed lines. *)
Definition closing (ev : env) (nr nt : nat) (label : string) (v : array) : list event :=
  [EvBlockUntilReady v;
   EvTime (wall_clock ev (S nt));
   EvRss (rss_bytes ev (S nr));
   EvPrint (time_line label (wall_clock ev nt) (wall_clock ev (S nt)));
   EvPrint (memory_line (rss_bytes ev nr) (rss_bytes ev (S nr)))].

Ltac run_cell :=
  cbv beta iota zeta delta
      [cell_1 cell_3 cell_4 cell_5 cell_6 cell_7 bind ret emit print display
       get_platform gc_collect get_memory_usage_mb memory_info_rss time_time
       jnp_ones call_direct call_wrapper launch block_until_ready jax_jit
       attempt advance opening closing time_line memory_line megabytes
       time_reads rss_reads launches jit_store log Nat.add];
  cbn [rev app].

(** ** The notebook's run, in events *)

(** The notebook's [x]; its [y] is built by the same expression. *)
Definition x0 : array := jnp.ones (size, size) float32.

Definition sig0 : signature := signature_of [x0; x0].

(** The executable the compiler returns for [matmul] at the signature of
    the notebook's call, and the wrapper that holds it. *)
Definition compiled (ev : env) : artifact := xla_compile ev matmul sig0.

Definition warm_wrapper (ev : env) : Jit.jitted :=
  {| Jit.wrapped := matmul; Jit.cache := <[sig0 := compiled ev]> ∅ |}.

Definition setup (ev : env) : list event :=
  [EvPrint [PStr "JAX Device:"; PStr (platform ev)];
   EvOnes (size, size) float32;
   EvOnes (size, size) float32].

Definition raw_start (ev : env) : list event :=
  EvGcCollect :: opening ev 0 0 (Direct "matmul") x0 x0.

Definition raw_run (ev : env) (v : array) : list event :=
  raw_start ev ++ closing ev 0 0 "Un-JITed Execution Time:" v.

Definition cold_start (ev : env) : list event :=
  EvGcCollect :: EvJit 0 :: opening ev 2 2 (Wrapper 0) x0 x0 ++ [EvCompile 0 sig0].

Definition cold_run (ev : env) (v : array) : list event :=
  cold_start ev ++ closing ev 2 2 "JITed (First Call) Execution Time:" v.

Definition warm_start (ev : env) : list event :=
  EvGcCollect :: opening ev 4 4 (Wrapper 0) x0 x0 ++ [EvReuse 0 sig0].

Definition warm_run (ev : env) (v : array) : list event :=
  warm_start ev ++ closing ev 4 4 "JITed (Second Call) Execution Time:" v.

(** The events between two worlds of one run, oldest first. *)
Definition events_between (w w' : world) : list event :=
  rev (take (length (log w') - length (log w)) (log w')).

(** The product of the notebook's inputs. *)
Definition product : array :=
  jnp.full (size, size) float32 (Float.of_Z float32 2048).

Definition final_globals : globals :=
  {| g_x := x0; g_y := x0; g_jit_matmul := 0; g_out := product |}.

Definition final_world (ev : env) : world :=
  advance world0 6 6 3 [warm_wrapper ev]
          (setup ev ++ raw_run ev product ++ cold_run ev product
             ++ warm_run ev product ++ [EvDisplay interpretation]).

Definition no_fault (ev : env) : Prop :=
  device_fault ev 0 = None /\ device_fault ev 1 = None /\ device_fault ev 2 = None.

(** The whole of a run that reaches its end, oldest event first: [v1],
    [v2], [v3] are the values of the three calls. *)
Definition run_history (ev : env) (v1 v2 v3 : array) : list event :=
  let t := wall_clock ev in
  let m := rss_bytes ev in
  [ EvPrint [PStr "JAX Device:"; PStr (platform ev)];
    EvOnes (size, size) float32;
    EvOnes (size, size) float32;
    EvGcCollect;
    EvRss (m 0); EvTime (t 0);
    EvCall (Direct "matmul") [x0; x0];
    EvBlockUntilReady v1;
    EvTime (t 1); EvRss (m 1);
    EvPrint (time_line "Un-JITed Execution Time:" (t 0) (t 1));
    EvPrint (memory_line (m 0) (m 1));
    EvGcCollect;
    EvJit 0;
    EvRss (m 2); EvTime (t 2);
    EvCall (Wrapper 0) [x0; x0]; EvCompile 0 sig0;
    EvBlockUntilReady v2;
    EvTime (t 3); EvRss (m 3);
    EvPrint (time_line "JITed (First Call) Execution Time:" (t 2) (t 3));
    EvPrint (memory_line (m 2) (m 3));
    EvGcCollect;
    EvRss (m 4); EvTime (t 4);
    EvCall (Wrapper 0) [x0; x0]; EvReuse 0 sig0;
    EvBlockUntilReady v3;
    EvTime (t 5); EvRss (m 5);
    EvPrint (time_line "JITed (Second Call) Execution Time:" (t 4) (t 5));
    EvPrint (memory_line (m 4) (m 5));
    EvDisplay interpretation ]%nat.

(** Standard output of a run that reaches its end. *)
Definition run_stdout (ev : env) : list (list pyobj) :=
  let t := wall_clock ev in
  let m := rss_bytes ev in
  [ [PStr "JAX Device:"; PStr (platform ev)];
    [PStr "Un-JITed Execution Time:"; PFloat (py_sub (t 1) (t 0)); PStr "seconds"];
    [PStr "Memory Usage:"; PFloat (py_sub (megabytes (m 1)) (megabytes (m 0))); PStr "MB"];
    [PStr "JITed (First Call) Execution Time:"; PFloat (py_sub (t 3) (t 2)); PStr "seconds"];
    [PStr "Memory Usage:"; PFloat (py_sub (megabytes (m 3)) (megabytes (m 2))); PStr "MB"];
    [PStr "JITed (Second Call) Execution Time:"; PFloat (py_sub (t 5) (t 4)); PStr "seconds"];
    [PStr "Memory Usage:"; PFloat (py_sub (megabytes (m 5)) (megabytes (m 4))); PStr "MB"]
  ]%nat.

(** Standard output when the run stops in the first, second or third
    measurement. *)
Definition stdout_upto (ev : env) (completed : nat) : list (list pyobj) :=
  take (1 + 2 * completed) (run_stdout ev).

(** ** The compiler's contract *)

(** What the compiler owes: the executable built for signature [s] does
    what the function does on every argument tuple of that signature. *)
Definition compile_sound (compile : pyfn -> signature -> artifact) : Prop :=
  forall f s args, signature_of args = s -> compile f s args = f args.


(** A compiler whose executables are specialised to their signature: on
    arguments of another signature they fail. *)
Definition specialize : pyfn -> signature -> artifact :=
  fun f s args =>
    if decide (signature_of args = s) then f args
    else Raise (XlaRuntimeError "executable run on arguments of another signature").

(** ** Sample environments *)

Definition MiB : Z := 1024 * 1024.

(** A machine where the clock ticks once per reading, memory stays put and
    nothing fails. *)
Definition env_quiet : env :=
  {| platform := "cpu";
     wall_clock := fun n => Float.of_Z float64 (Z.of_nat n);
     rss_bytes := fun _ => (100 * MiB)%Z;
     device_fault := fun _ => None;
     xla_compile := specialize |}.

(** The system clock is set back between the first two readings. *)
Definition env_backwards : env :=
  {| platform := "cpu";
     wall_clock := fun n => match n with
                            | O => Float.of_Z float64 10
                            | S k => Float.of_Z float64 (5 + Z.of_nat k)
                            end;
     rss_bytes := fun _ => (100 * MiB)%Z;
     device_fault := fun _ => None;
     xla_compile := specialize |}.

(** Resident memory is lower at the end of each measurement than at its
    start. *)
Definition env_shrinking : env :=
  {| platform := "cpu";
     wall_clock := fun n => Float.of_Z float64 (Z.of_nat n);
     rss_bytes := fun n => if Nat.even n then (200 * MiB)%Z else (100 * MiB)%Z;
     device_fault := fun _ => None;
     xla_compile := specialize |}.

(** The [k]-th computation handed to the device fails with [e]. *)
Definition env_faulty (k : nat) (e : exn) : env :=
  {| platform := "cpu";
     wall_clock := fun n => Float.of_Z float64 (Z.of_nat n);
     rss_bytes := fun _ => (100 * MiB)%Z;
     device_fault := fun n => if (n =? k)%nat then Some e else None;
     xla_compile := specialize |}.

Definition out_of_memory : exn := XlaRuntimeError "RESOURCE_EXHAUSTED: out of memory".

(** A pair of larger inputs, of another shape than the notebook's. *)
Definition big : array := jnp.ones (4096, 4096)%nat float32.

(** ** Reading a history *)


Definition call_of (e : event) : option (callee * list array) :=
  match e with EvCall c args => Some (c, args) | _ => None end.


(** The entry of a matrix at row [i], column [j]. *)
Definition entry (a : array) (i j : nat) : option spec_float :=
  match data a !! i with
  | Some row => row !! j
  | None => None
  end.

Definition sampled_time (e : event) : option spec_float :=
  match e with EvTime t => Some t | _ => None end.


(** ** The steps of a measurement *)

Inductive step :=
| GcPass
| SampleMemory
| SampleTime
| Invoke
| WaitUntilMaterialized
| Report
| BuildWrapper
| Allocate
| Show.

(** The step an event belongs to; what the wrapper does to its cache
    happens inside the call. *)
Definition step_of (e : event) : option step :=
  match e with
  | EvGcCollect => Some GcPass
  | EvRss _ => Some SampleMemory
  | EvTime _ => Some SampleTime
  | EvCall _ _ => Some Invoke
  | EvBlockUntilReady _ => Some WaitUntilMaterialized
  | EvPrint _ => Some Report
  | EvJit _ => Some BuildWrapper
  | EvOnes _ _ => Some Allocate
  | EvDisplay _ => Some Show
  | EvCompile _ _ | EvReuse _ _ => None
  end.

(** The order of steps the spec gives for every measurement. *)
Definition protocol : list step :=
  [GcPass; SampleMemory; SampleTime; Invoke; WaitUntilMaterialized;
   SampleTime; SampleMemory; Report; Report].

(** The events of one measurement started in world [w]: after the
    collection come the events [pre], in the call happen the events
    [inner]; the two lines carry the differences of the readings. *)
Definition measurement (ev : env) (w : world) (pre inner : list event)
           (label : string) (c : callee) (x y v : array) : list event :=
  let m0 := rss_bytes ev (rss_reads w) in
  let t0 := wall_clock ev (time_reads w) in
  let t1 := wall_clock ev (S (time_reads w)) in
  let m1 := rss_bytes ev (S (rss_reads w)) in
  EvGcCollect :: pre ++
  [EvRss m0; EvTime t0; EvCall c [x; y]] ++ inner ++
  [EvBlockUntilReady v; EvTime t1; EvRss m1;
   EvPrint [PStr label; PFloat (py_sub t1 t0); PStr "seconds"];
   EvPrint [PStr "Memory Usage:"; PFloat (py_sub (megabytes m1) (megabytes m0)); PStr "MB"]].

(** ** Any order of additions *)




Definition same_float (a b : spec_float) : bool :=
  match a, b with
  | S754_zero s, S754_zero s' => Bool.eqb s s'
  | S754_infinity s, S754_infinity s' => Bool.eqb s s'
  | S754_nan, S754_nan => true
  | S754_finite s m e, S754_finite s' m' e' =>
      Bool.eqb s s' && Pos.eqb m m' && Z.eqb e e'
  | _, _ => false
  end.

(** The integer [z] is a float of format [d], with a mantissa that is [z]
    shifted left by at most 23 places. *)
Definition exactly_represented (d : dtype) (z : Z) : bool :=
  match Float.of_Z d z with
  | S754_finite false m e =>
      Z.leb (-23) e && Z.leb e 0 && Z.eqb (Zpos m) (z * 2 ^ (- e))
  | _ => false
  end.

(** Rounding [z], given shifted left by [k] places, yields the float of [z]. *)
Definition shift_invariant (d : dtype) (z k : Z) : bool :=
  same_float (binary_normalize (dtype_prec d) (dtype_emax d) (z * 2 ^ k) (- k) false)
             (Float.of_Z d z).

Definition upto (lo n : nat) : list Z := map Z.of_nat (seq lo n).

(** ** Further readings of arrays, floats and histories *)


(** Neither infinite nor not-a-number. *)
Definition finite_float (f : spec_float) : bool :=
  match f with
  | S754_zero _ | S754_finite _ _ _ => true
  | S754_infinity _ | S754_nan => false
  end.

(** The sign bit is clear (or there is none). *)
Definition unsigned (f : spec_float) : bool :=
  match f with
  | S754_zero s | S754_infinity s | S754_finite s _ _ => negb s
  | S754_nan => true
  end.

Definition compiled_here (e : event) : option (nat * signature) :=
  match e with EvCompile h s => Some (h, s) | _ => None end.

Definition reused_here (e : event) : option (nat * signature) :=
  match e with EvReuse h s => Some (h, s) | _ => None end.

(** A broken compiler: its executables return their first argument. *)
Definition env_careless : env :=
  {| platform := "cpu";
     wall_clock := fun n => Float.of_Z float64 (Z.of_nat n);
     rss_bytes := fun _ => (100 * MiB)%Z;
     device_fault := fun _ => None;
     xla_compile := fun _ _ args =>
                      match args with
                      | a :: _ => Ok a
                      | [] => Raise (TypeError "no arguments")
                      end |}.

(** A clock too coarse for the calls: both readings of a measurement are
    the same. *)
Definition env_coarse : env :=
  {| platform := "cpu";
     wall_clock := fun n => Float.of_Z float64 (Z.of_nat (Nat.div2 n));
     rss_bytes := fun _ => (100 * MiB)%Z;
     device_fault := fun _ => None;
     xla_compile := specialize |}.

Ltac show_history :=
  cbv beta iota zeta delta
      [setup raw_run raw_start cold_run cold_start warm_run warm_start
       opening closing app];
  reflexivity.

(** ** Running a cell *)

Lemma cell_4_eq ev w x y :
  let nr := rss_reads w in
  let nt := time_reads w in
  cell_4 x y ev w =
  match attempt ev (launches w) (matmul [x; y]) with
  | Ok v =>
      (Ok v,
       advance w 2 2 1 (jit_store w)
               (EvGcCollect :: opening ev nr nt (Direct "matmul") x y
                  ++ closing ev nr nt "Un-JITed Execution Time:" v))
  | Raise e =>
      (Raise e,
       advance w 1 1 1 (jit_store w)
               (EvGcCollect :: opening ev nr nt (Direct "matmul") x y))
  end.
Proof.
  destruct w as [tr rr la st lg]. run_cell.
  destruct (device_fault ev la); [reflexivity|].
  destruct (matmul [x; y]); reflexivity.
Qed.

Lemma cell_5_eq ev w x y :
  let nr := rss_reads w in
  let nt := time_reads w in
  let h := length (jit_store w) in
  let s := signature_of [x; y] in
  let a := xla_compile ev matmul s in
  let store := jit_store w ++ [{| Jit.wrapped := matmul; Jit.cache := <[s := a]> ∅ |}] in
  cell_5 x y ev w =
  match attempt ev (launches w) (a [x; y]) with
  | Ok v =>
      (Ok (h, v),
       advance w 2 2 1 store
               (EvGcCollect :: EvJit h :: opening ev nr nt (Wrapper h) x y
                  ++ EvCompile h s :: closing ev nr nt "JITed (First Call) Execution Time:" v))
  | Raise e =>
      (Raise e,
       advance w 1 1 1 store
               (EvGcCollect :: EvJit h :: opening ev nr nt (Wrapper h) x y
                  ++ [EvCompile h s]))
  end.
Proof.
  destruct w as [tr rr la st lg]. run_cell.
  rewrite list_lookup_middle by reflexivity.
  cbv beta iota zeta delta [Jit.lookup_or_compile Jit.jit Jit.cache Jit.wrapped].
  rewrite lookup_empty.
  rewrite insert_app_r_alt by reflexivity.
  rewrite Nat.sub_diag. cbn [insert list_insert].
  destruct (device_fault ev la); [reflexivity|].
  destruct (xla_compile ev matmul (signature_of [x; y]) [x; y]); reflexivity.
Qed.

Lemma cell_6_eq ev w h j x y :
  jit_store w !! h = Some j ->
  let nr := rss_reads w in
  let nt := time_reads w in
  let s := signature_of [x; y] in
  cell_6 h x y ev w =
  let '(p, a, j') := Jit.lookup_or_compile (xla_compile ev) j [x; y] in
  match attempt ev (launches w) (a [x; y]) with
  | Ok v =>
      (Ok v,
       advance w 2 2 1 (<[h := j']> (jit_store w))
               (EvGcCollect :: opening ev nr nt (Wrapper h) x y
                  ++ cache_event p h s :: closing ev nr nt "JITed (Second Call) Execution Time:" v))
  | Raise e =>
      (Raise e,
       advance w 1 1 1 (<[h := j']> (jit_store w))
               (EvGcCollect :: opening ev nr nt (Wrapper h) x y
                  ++ [cache_event p h s]))
  end.
Proof.
  destruct w as [tr rr la st lg]. intros Hj. run_cell.
  cbn [jit_store] in Hj. rewrite Hj.
  destruct (Jit.lookup_or_compile (xla_compile ev) j [x; y]) as [[p a] j'].
  destruct (device_fault ev la); [reflexivity|].
  destruct (a [x; y]); reflexivity.
Qed.

(** ** Running the notebook *)

Lemma notebook_eq ev :
  notebook ev world0 =
  match attempt ev 0 (matmul [x0; x0]) with
  | Raise e => (Raise e, advance world0 1 1 1 [] (setup ev ++ raw_start ev))
  | Ok v1 =>
      match attempt ev 1 (compiled ev [x0; x0]) with
      | Raise e =>
          (Raise e,
           advance world0 3 3 2 [warm_wrapper ev]
                   (setup ev ++ raw_run ev v1 ++ cold_start ev))
      | Ok v2 =>
          match attempt ev 2 (compiled ev [x0; x0]) with
          | Raise e =>
              (Raise e,
               advance world0 5 5 3 [warm_wrapper ev]
                       (setup ev ++ raw_run ev v1 ++ cold_run ev v2 ++ warm_start ev))
          | Ok v3 =>
              (Ok {| g_x := x0; g_y := x0; g_jit_matmul := 0; g_out := v3 |},
               advance world0 6 6 3 [warm_wrapper ev]
                       (setup ev ++ raw_run ev v1 ++ cold_run ev v2 ++ warm_run ev v3
                          ++ [EvDisplay interpretation]))
          end
      end
  end.
Proof.
  unfold notebook.
  cbv beta iota zeta delta
      [bind cell_1 cell_3 ret emit print get_platform jnp_ones world0
       time_reads rss_reads launches jit_store log].
  fold x0.
  rewrite cell_4_eq.
  cbv beta iota zeta delta [time_reads rss_reads launches jit_store log].
  destruct (attempt ev 0 (matmul [x0; x0])) as [v1|e]; [|reflexivity].
  cbv beta iota.
  rewrite cell_5_eq.
  cbv beta iota zeta delta [advance time_reads rss_reads launches jit_store log Nat.add length app].
  fold sig0. fold (compiled ev). fold (warm_wrapper ev).
  destruct (attempt ev 1 (compiled ev [x0; x0])) as [v2|e]; [|reflexivity].
  cbv beta iota.
  rewrite (cell_6_eq _ _ _ (warm_wrapper ev)) by reflexivity.
  cbv beta iota zeta delta [Jit.lookup_or_compile warm_wrapper Jit.cache].
  fold sig0. rewrite lookup_insert_eq.
  fold (warm_wrapper ev).
  cbv beta iota zeta delta [advance time_reads rss_reads launches jit_store log Nat.add].
  destruct (attempt ev 2 (compiled ev [x0; x0])) as [v3|e]; reflexivity.
Qed.

(** ** The product of two matrices of ones *)

Lemma map_const_seq {A} (f : nat -> A) (c : A) (m start : nat) :
  (forall j, (start <= j < start + m)%nat -> f j = c) ->
  map f (seq start m) = repeat c m.
Proof.
  revert start. induction m as [|m IH]; intros start Hf; [reflexivity|].
  cbn [seq map repeat]. rewrite Hf by lia. f_equal.
  apply IH. intros j Hj. apply Hf. lia.
Qed.

Lemma nth_repeat_below {A} (a d : A) (m j : nat) :
  (j < m)%nat -> nth j (repeat a m) d = a.
Proof.
  revert j. induction m as [|m IH]; intros j Hj; [lia|].
  destruct j as [|j]; [reflexivity|]. cbn [repeat nth]. apply IH. lia.
Qed.

Lemma columns_full (v : spec_float) (k m : nat) :
  jnp.columns m (repeat (repeat v m) k) = repeat (repeat v k) m.
Proof.
  unfold jnp.columns. apply map_const_seq. intros j Hj.
  unfold jnp.column. rewrite map_repeat. f_equal.
  apply nth_repeat_below. lia.
Qed.

(** The product of an [n] by [k] and a [k] by [m] constant matrix is the
    constant matrix of the inner product of a row and a column. *)
Lemma dot_full (n k m : nat) (d : dtype) (u v : spec_float) :
  jnp.dot (jnp.full (n, k) d u) (jnp.full (k, m) d v) =
  Ok (jnp.full (n, m) d (jnp.inner d (repeat u k) (repeat v k))).
Proof.
  unfold jnp.dot, jnp.full.
  cbn [shape arr_dtype data fst snd].
  rewrite decide_True by reflexivity.
  rewrite columns_full, !map_repeat.
  destruct d; reflexivity.
Qed.

Lemma inner_ones_size :
  jnp.inner float32 (repeat (Float.of_Z float32 1) size)
            (repeat (Float.of_Z float32 1) size) =
  Float.of_Z float32 2048.
Proof. vm_compute. reflexivity. Qed.

Lemma matmul_x0 :
  matmul [x0; x0] = Ok (jnp.full (size, size) float32 (Float.of_Z float32 2048)).
Proof.
  unfold matmul, x0, jnp.ones.
  rewrite dot_full, inner_ones_size. reflexivity.
Qed.

Lemma lookup_repeat {A} (a : A) (n i : nat) :
  (i < n)%nat -> repeat a n !! i = Some a.
Proof.
  revert i. induction n as [|n IH]; intros i Hi; [lia|].
  destruct i as [|i]; [reflexivity|]. cbn [repeat]. apply IH. lia.
Qed.

Lemma entry_full sh d v i j :
  (i < fst sh)%nat -> (j < snd sh)%nat -> entry (jnp.full sh d v) i j = Some v.
Proof.
  intros Hi Hj. unfold entry, jnp.full. cbn [data].
  rewrite (lookup_repeat _ _ _ Hi). apply lookup_repeat, Hj.
Qed.

(** ** The wrapper's cache *)

Section Cache.
Variable compile : pyfn -> signature -> artifact.
Variable f : pyfn.






End Cache.

Lemma specialize_sound : compile_sound specialize.
Proof.
  intros f s args Hs. unfold specialize.
  rewrite decide_True by assumption. reflexivity.
Qed.


(** ** The sign of a difference of floats *)

Section Sign.
Variables prec emax : Z.
Hypothesis prec_pos : (0 < prec)%Z.




Lemma iter_xO_value m d :
  Zpos (Pos.iter xO m d) = (Zpos m * 2 ^ Zpos d)%Z.
Proof.
  induction d as [|d IH] using Pos.peano_ind.
  - cbn [Pos.iter]. rewrite Z.pow_1_r. lia.
  - rewrite Pos.iter_succ, Pos2Z.inj_succ, Z.pow_succ_r by lia.
    rewrite Pos2Z.inj_xO, IH. lia.
Qed.

Lemma shl_align_value m e e' :
  (e' <= e)%Z ->
  Zpos (fst (shl_align m e e')) = (Zpos m * 2 ^ (e - e'))%Z.
Proof.
  intros He. unfold shl_align.
  destruct (e' - e)%Z as [|d|d] eqn:Hd; cbn [fst].
  - replace (e - e')%Z with 0%Z by lia. lia.
  - lia.
  - rewrite iter_xO_value. f_equal. f_equal. lia.
Qed.


End Sign.


(** ** Any order of additions *)

Lemma same_float_eq a b : same_float a b = true -> a = b.
Proof.
  destruct a as [s|s| |s m e], b as [s'|s'| |s' m' e']; cbn; try discriminate.
  - intros ->%Bool.eqb_prop. reflexivity.
  - intros ->%Bool.eqb_prop. reflexivity.
  - reflexivity.
  - intros [[->%Bool.eqb_prop ->%Pos.eqb_eq]%andb_true_iff ->%Z.eqb_eq]%andb_true_iff.
    reflexivity.
Qed.

Lemma in_upto lo n z :
  (Z.of_nat lo <= z < Z.of_nat lo + Z.of_nat n)%Z -> In z (upto lo n).
Proof.
  intros Hz. unfold upto. apply in_map_iff. exists (Z.to_nat z).
  split; [lia|]. apply in_seq. lia.
Qed.






(** ** Histories and output *)

Lemma history_advance dt dr dl store evs :
  history (advance world0 dt dr dl store evs) = evs.
Proof.
  unfold history, advance. cbn [log world0].
  rewrite app_nil_r. apply rev_involutive.
Qed.

Lemma events_between_advance w dt dr dl store evs :
  events_between w (advance w dt dr dl store evs) = evs.
Proof.
  unfold events_between, advance. cbn [log].
  rewrite length_app, Nat.add_sub, take_app_length. apply rev_involutive.
Qed.

Lemma history_advance_from w dt dr dl store evs :
  history (advance w dt dr dl store evs) = history w ++ evs.
Proof.
  unfold history, advance. cbn [log].
  rewrite rev_app_distr, rev_involutive. reflexivity.
Qed.

Lemma stdout_advance w dt dr dl store evs :
  stdout (advance w dt dr dl store evs) = stdout w ++ omap printed evs.
Proof. unfold stdout. rewrite history_advance_from. apply omap_app. Qed.

Lemma attempt_ok ev n r v :
  attempt ev n r = Ok v -> device_fault ev n = None /\ r = Ok v.
Proof.
  unfold attempt. destruct (device_fault ev n); [discriminate|]. auto.
Qed.

Lemma notebook_ok ev g w :
  notebook ev world0 = (Ok g, w) ->
  exists v1 v2 v3,
    attempt ev 0 (matmul [x0; x0]) = Ok v1 /\
    attempt ev 1 (compiled ev [x0; x0]) = Ok v2 /\
    attempt ev 2 (compiled ev [x0; x0]) = Ok v3 /\
    g = {| g_x := x0; g_y := x0; g_jit_matmul := 0; g_out := v3 |} /\
    w = advance world0 6 6 3 [warm_wrapper ev]
                (setup ev ++ raw_run ev v1 ++ cold_run ev v2 ++ warm_run ev v3
                   ++ [EvDisplay interpretation]).
Proof.
  rewrite notebook_eq.
  destruct (attempt ev 0 (matmul [x0; x0])) as [v1|]; [|discriminate].
  destruct (attempt ev 1 (compiled ev [x0; x0])) as [v2|]; [|discriminate].
  destruct (attempt ev 2 (compiled ev [x0; x0])) as [v3|]; [|discriminate].
  intros [= <- <-]. exists v1, v2, v3. repeat split.
Qed.

Lemma compiled_sound ev :
  compile_sound (xla_compile ev) -> compiled ev [x0; x0] = Ok product.
Proof.
  intros Hs. unfold compiled. rewrite Hs by reflexivity. apply matmul_x0.
Qed.

Lemma notebook_succeeds ev :
  no_fault ev -> compile_sound (xla_compile ev) ->
  notebook ev world0 = (Ok final_globals, final_world ev).
Proof.
  intros (H0 & H1 & H2) Hs. rewrite notebook_eq.
  unfold attempt. rewrite H0, H1, H2, matmul_x0, (compiled_sound ev Hs).
  reflexivity.
Qed.

Lemma history_run ev v1 v2 v3 :
  setup ev ++ raw_run ev v1 ++ cold_run ev v2 ++ warm_run ev v3
    ++ [EvDisplay interpretation] = run_history ev v1 v2 v3.
Proof. show_history. Qed.

Lemma stdout_run ev v1 v2 v3 :
  omap printed (run_history ev v1 v2 v3) = run_stdout ev.
Proof. reflexivity. Qed.

Lemma displayed_run ev v1 v2 v3 :
  omap shown (run_history ev v1 v2 v3) = [interpretation].
Proof. reflexivity. Qed.

Lemma notebook_history ev g w :
  notebook ev world0 = (Ok g, w) ->
  exists v1 v2 v3, history w = run_history ev v1 v2 v3.
Proof.
  intros (v1 & v2 & v3 & _ & _ & _ & _ & ->)%notebook_ok.
  exists v1, v2, v3. rewrite history_advance. apply history_run.
Qed.

Lemma notebook_stdout ev g w :
  notebook ev world0 = (Ok g, w) -> stdout w = run_stdout ev.
Proof.
  intros (v1 & v2 & v3 & H)%notebook_history.
  unfold stdout. rewrite H. apply stdout_run.
Qed.


Lemma bind_raise {A B} (m : M A) (k : A -> M B) ev w e w' :
  m ev w = (Raise e, w') -> bind m k ev w = (Raise e, w').
Proof. intros H. unfold bind. rewrite H. reflexivity. Qed.

Lemma env_quiet_no_fault : no_fault env_quiet.
Proof. repeat split. Qed.

Lemma notebook_quiet :
  notebook env_quiet world0 = (Ok final_globals, final_world env_quiet).
Proof. apply notebook_succeeds; [exact env_quiet_no_fault | exact specialize_sound]. Qed.

Lemma env_shrinking_no_fault : no_fault env_shrinking.
Proof. repeat split. Qed.

Lemma notebook_shrinking :
  notebook env_shrinking world0 = (Ok final_globals, final_world env_shrinking).
Proof. apply notebook_succeeds; [exact env_shrinking_no_fault | exact specialize_sound]. Qed.





Example megabytes_200 : megabytes (200 * MiB) = Float.of_Z float64 200.
Proof. vm_compute. reflexivity. Qed.

Example shrinking_delta :
  py_sub (megabytes (100 * MiB)) (megabytes (200 * MiB)) = Float.of_Z float64 (-100).
Proof. vm_compute. reflexivity. Qed.

(** ** Cells that succeed, cells that fail *)

Lemma cell_4_ok ev w x y v w' :
  cell_4 x y ev w = (Ok v, w') ->
  events_between w w' =
  measurement ev w [] [] "Un-JITed Execution Time:" (Direct "matmul") x y v.
Proof.
  rewrite cell_4_eq. cbv zeta.
  destruct (attempt ev (launches w) (matmul [x; y])); [|discriminate].
  intros [= <- <-]. apply events_between_advance.
Qed.

Lemma cell_5_ok ev w x y h v w' :
  cell_5 x y ev w = (Ok (h, v), w') ->
  h = length (jit_store w) /\
  events_between w w' =
  measurement ev w [EvJit h] [EvCompile h (signature_of [x; y])]
              "JITed (First Call) Execution Time:" (Wrapper h) x y v.
Proof.
  rewrite cell_5_eq. cbv zeta.
  destruct (attempt ev (launches w) _); [|discriminate].
  intros [= <- <- <-]. split; [reflexivity|]. apply events_between_advance.
Qed.

Lemma cell_6_unbound ev w h x y :
  jit_store w !! h = None ->
  exists e w', cell_6 h x y ev w = (Raise e, w').
Proof.
  destruct w as [tr rr la st lg]. intros Hj. run_cell.
  cbn [jit_store] in Hj. rewrite Hj. eexists _, _. reflexivity.
Qed.

Lemma cell_6_ok ev w h x y v w' :
  cell_6 h x y ev w = (Ok v, w') ->
  exists c,
    (c = EvCompile h (signature_of [x; y]) \/ c = EvReuse h (signature_of [x; y])) /\
    events_between w w' =
    measurement ev w [] [c] "JITed (Second Call) Execution Time:" (Wrapper h) x y v.
Proof.
  destruct (jit_store w !! h) as [j|] eqn:Hj.
  - rewrite (cell_6_eq _ _ _ _ _ _ Hj). cbv zeta.
    destruct (Jit.lookup_or_compile (xla_compile ev) j [x; y]) as [[p a] j'].
    destruct (attempt ev (launches w) (a [x; y])); [|discriminate].
    intros [= <- <-]. exists (cache_event p h (signature_of [x; y])).
    split; [destruct p; auto|]. apply events_between_advance.
  - destruct (cell_6_unbound ev w h x y Hj) as (e & w'' & ->). discriminate.
Qed.

Lemma cell_4_raise ev w x y e :
  attempt ev (launches w) (matmul [x; y]) = Raise e ->
  exists w', cell_4 x y ev w = (Raise e, w') /\ stdout w' = stdout w.
Proof.
  intros H. rewrite cell_4_eq. cbv zeta. rewrite H.
  eexists. split; [reflexivity|].
  rewrite stdout_advance. cbn. apply app_nil_r.
Qed.

Lemma cell_5_raise ev w x y e :
  attempt ev (launches w) (xla_compile ev matmul (signature_of [x; y]) [x; y]) = Raise e ->
  exists w', cell_5 x y ev w = (Raise e, w') /\ stdout w' = stdout w.
Proof.
  intros H. rewrite cell_5_eq. cbv zeta. rewrite H.
  eexists. split; [reflexivity|].
  rewrite stdout_advance. cbn. apply app_nil_r.
Qed.

Lemma cell_6_raise ev w h j x y e :
  jit_store w !! h = Some j ->
  attempt ev (launches w)
          (snd (fst (Jit.lookup_or_compile (xla_compile ev) j [x; y])) [x; y]) = Raise e ->
  exists w', cell_6 h x y ev w = (Raise e, w') /\ stdout w' = stdout w.
Proof.
  intros Hj H. rewrite (cell_6_eq _ _ _ _ _ _ Hj). cbv zeta.
  destruct (Jit.lookup_or_compile (xla_compile ev) j [x; y]) as [[p a] j'].
  cbn [fst snd] in H. rewrite H.
  eexists. split; [reflexivity|].
  rewrite stdout_advance. destruct p; cbn; apply app_nil_r.
Qed.

Lemma cell_5_quiet :
  cell_5 x0 x0 env_quiet world0 =
  (Ok (0%nat, product),
   advance world0 2 2 1 [warm_wrapper env_quiet]
           (measurement env_quiet world0 [EvJit 0] [EvCompile 0 sig0]
                        "JITed (First Call) Execution Time:" (Wrapper 0) x0 x0 product)).
Proof.
  rewrite cell_5_eq. cbv zeta. fold sig0. fold (compiled env_quiet).
  rewrite (compiled_sound env_quiet specialize_sound). reflexivity.
Qed.

Lemma cell_4_backwards :
  cell_4 x0 x0 env_backwards world0 =
  (Ok product,
   advance world0 2 2 1 []
           (measurement env_backwards world0 [] [] "Un-JITed Execution Time:"
                        (Direct "matmul") x0 x0 product)).
Proof. rewrite cell_4_eq. cbv zeta. rewrite matmul_x0. reflexivity. Qed.

(** ** The wrapper against the function it wraps *)





(** ** The steps of a measurement *)

(** C3, as the code has it.  Each of the three measurement cells, from
    any world and on any inputs, when its call succeeds, does this and
    nothing else: a collection, a memory sample, a reading of the wall
    clock, the call, the blocking wait on its result, a second reading of
    the clock, a second memory sample, and the two printed lines, which
    carry end minus start of the two pairs of readings.  The cell of the
    first wrapped call builds the wrapper between the collection and the
    first memory sample; the other two follow the order of the spec
    exactly. *)
Theorem measurement_steps ev w x y :
  (forall v w',
      cell_4 x y ev w = (Ok v, w') ->
      events_between w w' =
      measurement ev w [] [] "Un-JITed Execution Time:" (Direct "matmul") x y v /\
      omap step_of (events_between w w') = protocol) /\
  (forall h v w',
      cell_5 x y ev w = (Ok (h, v), w') ->
      events_between w w' =
      measurement ev w [EvJit h] [EvCompile h (signature_of [x; y])]
                  "JITed (First Call) Execution Time:" (Wrapper h) x y v /\
      omap step_of (events_between w w') = GcPass :: BuildWrapper :: tail protocol) /\
  (forall h v w',
      cell_6 h x y ev w = (Ok v, w') ->
      (exists c,
          (c = EvCompile h (signature_of [x; y]) \/ c = EvReuse h (signature_of [x; y])) /\
          events_between w w' =
          measurement ev w [] [c] "JITed (Second Call) Execution Time:" (Wrapper h) x y v) /\
      omap step_of (events_between w w') = protocol).
Proof.
  split; [|split].
  - intros v w' H. rewrite (cell_4_ok _ _ _ _ _ _ H). split; reflexivity.
  - intros h v w' H. destruct (cell_5_ok _ _ _ _ _ _ _ H) as [_ ->].
    split; reflexivity.
  - intros h v w' H. destruct (cell_6_ok _ _ _ _ _ _ _ H) as (c & Hc & ->).
    split; [exists c; split; [exact Hc|reflexivity]|].
    destruct Hc as [-> | ->]; reflexivity.
Qed.

Lemma measurement_steps_witness :
  cell_5 x0 x0 env_quiet world0 =
  (Ok (0%nat, product),
   advance world0 2 2 1 [warm_wrapper env_quiet]
           (measurement env_quiet world0 [EvJit 0] [EvCompile 0 sig0]
                        "JITed (First Call) Execution Time:" (Wrapper 0) x0 x0 product)) /\
  omap step_of
       (events_between world0
          (advance world0 2 2 1 [warm_wrapper env_quiet]
             (measurement env_quiet world0 [EvJit 0] [EvCompile 0 sig0]
                "JITed (First Call) Execution Time:" (Wrapper 0) x0 x0 product)))
  = GcPass :: BuildWrapper :: tail protocol.
Proof.
  split; [exact cell_5_quiet|].
  exact (proj2 (proj1 (proj2 (measurement_steps env_quiet world0 x0 x0))
                      _ _ _ cell_5_quiet)).
Defined.

(** C3, as the claim has it, fails twice.  In the cell of the first
    wrapped call the wrapper is built after the collection and before the
    first memory sample, so that measurement does not follow the order of
    the spec.  And the clock that is sampled is the wall clock: when it is
    set back, the second reading of a measurement is below the first. *)
Lemma cold_measurement_breaks_protocol :
  (exists h v w',
      cell_5 x0 x0 env_quiet world0 = (Ok (h, v), w') /\
      omap step_of (events_between world0 w') <> protocol /\
      omap step_of (events_between world0 w') !! 1%nat = Some BuildWrapper) /\
  (exists v w' t0 t1,
      cell_4 x0 x0 env_backwards world0 = (Ok v, w') /\
      omap sampled_time (events_between world0 w') = [t0; t1] /\
      SFltb t1 t0 = true).
Proof.
  split.
  - eexists _, _, _. split; [exact cell_5_quiet|].
    rewrite events_between_advance. split; [discriminate|reflexivity].
  - eexists _, _, _, _. split; [exact cell_4_backwards|].
    rewrite events_between_advance. split; reflexivity.
Qed.

(** ** The elapsed time *)




(** ** The order of the run *)

(** C6. A run that reaches its end has done exactly what [run_history]
    lists, in that order: the device line and the two inputs; the
    measurement of the plain function; then the wrapper is built and its
    first call measured, which compiles; then a second call of the same
    wrapper on the same arguments is measured, which reuses the executable;
    each measurement ends in its time line and its memory line.  The
    wrapper wraps the function that was measured first. *)
Theorem three_measurements_in_order ev g w :
  notebook ev world0 = (Ok g, w) ->
  (exists v1 v2 v3, history w = run_history ev v1 v2 v3) /\
  omap call_of (history w) =
    [(Direct "matmul", [x0; x0]); (Wrapper 0, [x0; x0]); (Wrapper 0, [x0; x0])] /\
  Jit.wrapped <$> jit_store w !! 0%nat = Some matmul /\
  omap step_of (history w) =
    [Report; Allocate; Allocate]
      ++ protocol
      ++ (GcPass :: BuildWrapper :: tail protocol)
      ++ protocol
      ++ [Show] /\
  stdout w = run_stdout ev.
Proof.
  intros (v1 & v2 & v3 & _ & _ & _ & _ & ->)%notebook_ok.
  unfold stdout. rewrite history_advance, history_run.
  split; [exists v1, v2, v3; reflexivity|]. repeat split.
Qed.

Lemma three_measurements_in_order_witness :
  notebook env_quiet world0 = (Ok final_globals, final_world env_quiet) /\
  omap call_of (history (final_world env_quiet)) =
    [(Direct "matmul", [x0; x0]); (Wrapper 0, [x0; x0]); (Wrapper 0, [x0; x0])].
Proof.
  split; [exact notebook_quiet|].
  exact (proj1 (proj2 (three_measurements_in_order env_quiet _ _ notebook_quiet))).
Defined.

(** ** Failures *)

(** C7. Nothing catches a failure of the measured call: sequencing hands
    an exception on.  In each of the three measurement cells, whatever the inputs and the world, an
    exception raised by the call (by the function or by the device) is the
    cell's outcome, and the cell prints nothing.  A run stops at the first
    such failure with that exception: standard output holds the device line
    and the two lines of each measurement completed before, and the
    interpretation is not shown. *)
Theorem failure_propagates ev e :
  (forall (A B : Type) (m : M A) (k : A -> M B) w w',
      m ev w = (Raise e, w') -> bind m k ev w = (Raise e, w')) /\
  (forall w x y,
      attempt ev (launches w) (matmul [x; y]) = Raise e ->
      exists w', cell_4 x y ev w = (Raise e, w') /\ stdout w' = stdout w) /\
  (forall w x y,
      attempt ev (launches w)
              (xla_compile ev matmul (signature_of [x; y]) [x; y]) = Raise e ->
      exists w', cell_5 x y ev w = (Raise e, w') /\ stdout w' = stdout w) /\
  (forall w h j x y,
      jit_store w !! h = Some j ->
      attempt ev (launches w)
              (snd (fst (Jit.lookup_or_compile (xla_compile ev) j [x; y])) [x; y])
      = Raise e ->
      exists w', cell_6 h x y ev w = (Raise e, w') /\ stdout w' = stdout w) /\
  (attempt ev 0 (matmul [x0; x0]) = Raise e ->
   exists w, notebook ev world0 = (Raise e, w) /\
             stdout w = stdout_upto ev 0 /\ displayed w = []) /\
  (forall v1,
      attempt ev 0 (matmul [x0; x0]) = Ok v1 ->
      attempt ev 1 (compiled ev [x0; x0]) = Raise e ->
      exists w, notebook ev world0 = (Raise e, w) /\
                stdout w = stdout_upto ev 1 /\ displayed w = []) /\
  (forall v1 v2,
      attempt ev 0 (matmul [x0; x0]) = Ok v1 ->
      attempt ev 1 (compiled ev [x0; x0]) = Ok v2 ->
      attempt ev 2 (compiled ev [x0; x0]) = Raise e ->
      exists w, notebook ev world0 = (Raise e, w) /\
                stdout w = stdout_upto ev 2 /\ displayed w = []).
Proof.
  split; [exact (fun A B m k w w' => bind_raise m k ev w e w')|].
  split; [exact (fun w x y => cell_4_raise ev w x y e)|].
  split; [exact (fun w x y => cell_5_raise ev w x y e)|].
  split; [exact (fun w h j x y => cell_6_raise ev w h j x y e)|].
  split; [|split].
  - intros H0. rewrite notebook_eq, H0. eexists. split; [reflexivity|].
    split; reflexivity.
  - intros v1 H0 H1. rewrite notebook_eq, H0, H1. eexists. split; [reflexivity|].
    split; reflexivity.
  - intros v1 v2 H0 H1 H2. rewrite notebook_eq, H0, H1, H2.
    eexists. split; [reflexivity|]. split; reflexivity.
Qed.

(** The device runs out of memory in the cold call. *)
Lemma failure_propagates_witness :
  attempt (env_faulty 1 out_of_memory) 0 (matmul [x0; x0]) = Ok product /\
  attempt (env_faulty 1 out_of_memory) 1
          (compiled (env_faulty 1 out_of_memory) [x0; x0]) = Raise out_of_memory /\
  exists w,
    notebook (env_faulty 1 out_of_memory) world0 = (Raise out_of_memory, w) /\
    stdout w = stdout_upto (env_faulty 1 out_of_memory) 1 /\
    displayed w = [].
Proof.
  assert (attempt (env_faulty 1 out_of_memory) 0 (matmul [x0; x0]) = Ok product) as H0
    by (rewrite matmul_x0; reflexivity).
  assert (attempt (env_faulty 1 out_of_memory) 1
                  (compiled (env_faulty 1 out_of_memory) [x0; x0]) = Raise out_of_memory)
    as H1 by reflexivity.
  split; [exact H0|]. split; [exact H1|].
  exact (proj1 (proj2 (proj2 (proj2 (proj2 (proj2
           (failure_propagates (env_faulty 1 out_of_memory) out_of_memory))))))
           product H0 H1).
Defined.

(** ** What the run prints *)

(** C8, as the code has it.  A run that reaches its end prints exactly
    seven lines to standard output: the device line, then for each of the
    three measurements its time line and its memory line.  The
    interpretation is not printed: it is the value of the last cell, shown
    as Markdown. *)
Theorem stdout_is_seven_lines ev g w :
  notebook ev world0 = (Ok g, w) ->
  stdout w = run_stdout ev /\
  length (stdout w) = 7%nat /\
  displayed w = [interpretation].
Proof.
  intros H. pose proof (notebook_stdout _ _ _ H) as Hs.
  destruct (notebook_history _ _ _ H) as (v1 & v2 & v3 & Hh).
  rewrite Hs. repeat split.
  unfold displayed. rewrite Hh. apply displayed_run.
Qed.

Lemma stdout_is_seven_lines_witness :
  notebook env_quiet world0 = (Ok final_globals, final_world env_quiet) /\
  stdout (final_world env_quiet) = run_stdout env_quiet /\
  length (stdout (final_world env_quiet)) = 7%nat /\
  displayed (final_world env_quiet) = [interpretation].
Proof.
  split; [exact notebook_quiet|].
  exact (stdout_is_seven_lines env_quiet _ _ notebook_quiet).
Defined.

(** C8, as the claim has it, fails: the run prints seven lines, not four,
    and none of them is the interpretation. *)
Lemma stdout_is_not_four_lines :
  let w := snd (notebook env_quiet world0) in
  length (stdout w) <> 4%nat /\
  [PStr interpretation] ∉ stdout w.
Proof.
  cbv zeta. rewrite notebook_quiet. cbn [snd].
  rewrite (notebook_stdout _ _ _ notebook_quiet).
  split; [discriminate|].
  unfold run_stdout. intros Hin.
  repeat (apply elem_of_cons in Hin as [Hin|Hin]; [discriminate Hin|]).
  apply elem_of_nil in Hin. exact Hin.
Qed.

(** ** The values of the three runs *)



(** ** The memory figure *)

(** C10. In a run that reaches its end, the memory line of each of the
    three measurements carries the difference of the two readings of that
    measurement, each turned into megabytes as [rss / 1024 / 1024], and
    nothing else is done to it; there is a run in which the figure printed
    is negative. *)
Theorem memory_delta_is_raw_difference :
  (forall ev g w,
      notebook ev world0 = (Ok g, w) ->
      forall k, (k < 3)%nat ->
        stdout w !! (2 * k + 2)%nat =
        Some [PStr "Memory Usage:";
              PFloat (py_sub (megabytes (rss_bytes ev (2 * k + 1)))
                             (megabytes (rss_bytes ev (2 * k))));
              PStr "MB"]) /\
  (forall rss,
      megabytes rss =
      py_truediv (py_truediv (Float.of_Z float64 rss) (Float.of_Z float64 1024))
                 (Float.of_Z float64 1024)) /\
  (exists ev g w f,
      notebook ev world0 = (Ok g, w) /\
      stdout w !! 2%nat = Some [PStr "Memory Usage:"; PFloat f; PStr "MB"] /\
      Float.is_negative f = true).
Proof.
  split; [|split].
  - intros ev g w H k Hk. rewrite (notebook_stdout _ _ _ H).
    destruct k as [|[|[|k]]]; [reflexivity..|lia].
  - reflexivity.
  - exists env_shrinking, final_globals, (final_world env_shrinking),
      (Float.of_Z float64 (-100)).
    split; [exact notebook_shrinking|].
    rewrite (notebook_stdout _ _ _ notebook_shrinking).
    split; [|reflexivity].
    cbn [run_stdout lookup list_lookup]. rewrite <- shrinking_delta. reflexivity.
Qed.

Lemma memory_delta_is_raw_difference_witness :
  notebook env_shrinking world0 = (Ok final_globals, final_world env_shrinking) /\
  stdout (final_world env_shrinking) !! 2%nat =
  Some [PStr "Memory Usage:";
        PFloat (py_sub (megabytes (100 * MiB)) (megabytes (200 * MiB)));
        PStr "MB"].
Proof.
  split; [exact notebook_shrinking|].
  exact (proj1 memory_delta_is_raw_difference env_shrinking _ _
               notebook_shrinking 0%nat ltac:(lia)).
Defined.

(** ** Matrix products of any shape *)



(** ** Sums of ones, up to a bound *)

Section Sums.
Variable N : nat.
Hypothesis represented :
  forallb (exactly_represented float32) (upto 1 N) = true.
Hypothesis invariant :
  forallb (fun z => forallb (shift_invariant float32 z) (upto 0 24)) (upto 1 N) = true.

Lemma add_integers a b :
  (1 <= a)%Z -> (1 <= b)%Z -> (a + b <= Z.of_nat N)%Z ->
  Float.add float32 (Float.of_Z float32 a) (Float.of_Z float32 b)
  = Float.of_Z float32 (a + b).
Proof.
  intros Ha Hb Hab.
  pose proof represented as Hrep. rewrite forallb_forall in Hrep.
  pose proof (Hrep a (in_upto 1 N a ltac:(lia))) as Ra.
  pose proof (Hrep b (in_upto 1 N b ltac:(lia))) as Rb.
  unfold exactly_represented in Ra, Rb.
  destruct (Float.of_Z float32 a) as [| | |[] ma ea]; try discriminate Ra.
  destruct (Float.of_Z float32 b) as [| | |[] mb eb]; try discriminate Rb.
  apply andb_true_iff in Ra as [[La%Z.leb_le Ua%Z.leb_le]%andb_true_iff Ma%Z.eqb_eq].
  apply andb_true_iff in Rb as [[Lb%Z.leb_le Ub%Z.leb_le]%andb_true_iff Mb%Z.eqb_eq].
  unfold Float.add. cbn [SFadd cond_Zopp].
  rewrite !shl_align_value by lia. rewrite Ma, Mb.
  rewrite <- !Z.mul_assoc, <- !Z.pow_add_r by lia.
  replace (- ea + (ea - Z.min ea eb))%Z with (- Z.min ea eb)%Z by lia.
  replace (- eb + (eb - Z.min ea eb))%Z with (- Z.min ea eb)%Z by lia.
  rewrite <- Z.mul_add_distr_r.
  pose proof invariant as Hinv. rewrite forallb_forall in Hinv.
  pose proof (Hinv (a + b)%Z (in_upto 1 N (a + b) ltac:(lia))) as Hk.
  rewrite forallb_forall in Hk.
  pose proof (Hk (- Z.min ea eb)%Z (in_upto 0 24 (- Z.min ea eb) ltac:(lia))) as Hs.
  apply same_float_eq in Hs. rewrite Z.opp_involutive in Hs. exact Hs.
Qed.

Lemma combine_repeat {A B} (a : A) (b : B) k :
  combine (repeat a k) (repeat b k) = repeat (a, b) k.
Proof. induction k as [|k IH]; [reflexivity|]. cbn [repeat combine]. f_equal. exact IH. Qed.

Lemma accumulate_ones k a :
  (1 <= a)%Z -> (a + Z.of_nat k <= Z.of_nat N)%Z ->
  fold_left (fun acc p => Float.add float32 acc (Float.mul float32 (fst p) (snd p)))
            (repeat (Float.of_Z float32 1, Float.of_Z float32 1) k)
            (Float.of_Z float32 a)
  = Float.of_Z float32 (a + Z.of_nat k).
Proof.
  revert a. induction k as [|k IH]; intros a Ha Hk.
  - cbn [repeat fold_left]. f_equal. lia.
  - cbn [repeat fold_left fst snd].
    change (Float.mul float32 (Float.of_Z float32 1) (Float.of_Z float32 1))
      with (Float.of_Z float32 1).
    rewrite add_integers by lia. rewrite IH by lia. f_equal. lia.
Qed.

Lemma inner_ones k :
  (k <= N)%nat ->
  jnp.inner float32 (repeat (Float.of_Z float32 1) k) (repeat (Float.of_Z float32 1) k)
  = Float.of_Z float32 (Z.of_nat k).
Proof.
  intros Hk. unfold jnp.inner. rewrite combine_repeat.
  destruct k as [|k]; [reflexivity|].
  cbn [repeat fold_left fst snd].
  change (Float.add float32 Float.zero
            (Float.mul float32 (Float.of_Z float32 1) (Float.of_Z float32 1)))
    with (Float.of_Z float32 1).
  rewrite accumulate_ones by lia. f_equal. lia.
Qed.
End Sums.

Lemma integers_represented_4096 :
  forallb (exactly_represented float32) (upto 1 4096) = true.
Proof. vm_compute. reflexivity. Qed.

Lemma integers_shift_invariant_4096 :
  forallb (fun z => forallb (shift_invariant float32 z) (upto 0 24)) (upto 1 4096) = true.
Proof. vm_compute. reflexivity. Qed.

(** X2. The product of an [n] by [k] and a [k] by [m] matrix of [float32]
    ones, for any [n] and [m] and any [k] up to 4096, is the [n] by [m]
    matrix whose every entry is the float [k]: for the sizes the notebook
    can plausibly be rerun with, the benchmark's result is exact. *)
Theorem matmul_ones n k m :
  (k <= 4096)%nat ->
  matmul [jnp.ones (n, k) float32; jnp.ones (k, m) float32]
  = Ok (jnp.full (n, m) float32 (Float.of_Z float32 (Z.of_nat k))).
Proof.
  intros Hk. unfold matmul, jnp.ones. rewrite dot_full.
  rewrite (inner_ones 4096 integers_represented_4096 integers_shift_invariant_4096 k Hk).
  reflexivity.
Qed.

Lemma matmul_ones_witness :
  (4096 <= 4096)%nat /\
  matmul [big; big]
  = Ok (jnp.full (4096, 4096)%nat float32 (Float.of_Z float32 (Z.of_nat 4096))).
Proof.
  split; [exact (le_n 4096)|].
  exact (matmul_ones 4096 4096 4096 (le_n 4096)).
Defined.

(** ** The three measurement cells on any inputs *)

Lemma jit_store_advance w dt dr dl store evs :
  jit_store (advance w dt dr dl store evs) = store.
Proof. reflexivity. Qed.

Lemma launches_advance w dt dr dl store evs :
  launches (advance w dt dr dl store evs) = (dl + launches w)%nat.
Proof. reflexivity. Qed.

Lemma cell_4_value ev w x y v w' :
  cell_4 x y ev w = (Ok v, w') ->
  matmul [x; y] = Ok v /\ jit_store w' = jit_store w.
Proof.
  rewrite cell_4_eq. cbv zeta.
  destruct (attempt ev (launches w) (matmul [x; y])) as [v0|] eqn:Ha; [|discriminate].
  intros [= <- <-]. apply attempt_ok in Ha as [_ Ha]. split; [exact Ha|reflexivity].
Qed.

Lemma cell_5_value ev w x y h v w' :
  cell_5 x y ev w = (Ok (h, v), w') ->
  let s := signature_of [x; y] in
  let a := xla_compile ev matmul s in
  a [x; y] = Ok v /\
  jit_store w' !! h = Some {| Jit.wrapped := matmul; Jit.cache := <[s := a]> ∅ |}.
Proof.
  rewrite cell_5_eq. cbv zeta.
  destruct (attempt ev (launches w) _) as [v0|] eqn:Ha; [|discriminate].
  intros [= <- <- <-]. apply attempt_ok in Ha as [_ Ha]. split; [exact Ha|].
  rewrite jit_store_advance. apply list_lookup_middle. reflexivity.
Qed.

(** A call through a wrapper that holds an executable for the signature. *)
Lemma cell_6_warm ev w h j (a : artifact) x y :
  jit_store w !! h = Some j ->
  Jit.cache j !! signature_of [x; y] = Some a ->
  forall v w',
    cell_6 h x y ev w = (Ok v, w') ->
    a [x; y] = Ok v /\
    jit_store w' = jit_store w /\
    omap reused_here (events_between w w') = [(h, signature_of [x; y])] /\
    omap compiled_here (events_between w w') = [].
Proof.
  intros Hj Hc v w'. rewrite (cell_6_eq _ _ _ _ _ _ Hj). cbv zeta.
  unfold Jit.lookup_or_compile. cbv zeta. rewrite Hc.
  destruct (attempt ev (launches w) (a [x; y])) as [v0|] eqn:Ha; [|discriminate].
  intros [= <- <-]. apply attempt_ok in Ha as [_ Ha].
  rewrite jit_store_advance, events_between_advance.
  split; [exact Ha|]. split; [apply list_insert_id, Hj|]. split; reflexivity.
Qed.


(** X3. The three measurement cells, run one after the other from any
    world on any two inputs: if all three calls succeed and the compiler
    is sound, the three results are one and the same array, the one
    [matmul] returns; and the call of the third cell compiles nothing, it
    reuses the executable of the second, and leaves the wrappers as they
    are. *)
Theorem three_cells_agree ev w x y v1 w1 h v2 w2 v3 w3 :
  compile_sound (xla_compile ev) ->
  cell_4 x y ev w = (Ok v1, w1) ->
  cell_5 x y ev w1 = (Ok (h, v2), w2) ->
  cell_6 h x y ev w2 = (Ok v3, w3) ->
  matmul [x; y] = Ok v1 /\ v2 = v1 /\ v3 = v1 /\
  omap reused_here (events_between w2 w3) = [(h, signature_of [x; y])] /\
  omap compiled_here (events_between w2 w3) = [] /\
  jit_store w3 = jit_store w2.
Proof.
  intros Hs H4 H5 H6.
  apply cell_4_value in H4 as [Hm _].
  apply cell_5_value in H5 as [Ha Hj]. cbv zeta in Ha, Hj.
  rewrite Hs in Ha by reflexivity.
  pose proof (cell_6_warm ev w2 h _ _ x y Hj (lookup_insert_eq _ _ _) v3 w3 H6)
    as (Hv & Hst & Hr & Hc).
  rewrite Hs in Hv by reflexivity.
  repeat split; try assumption; congruence.
Qed.

Lemma cells_succeed ev w x y v :
  compile_sound (xla_compile ev) ->
  matmul [x; y] = Ok v ->
  (forall n, device_fault ev n = None) ->
  exists w1 h w2 w3 w4,
    cell_4 x y ev w = (Ok v, w1) /\
    cell_5 x y ev w1 = (Ok (h, v), w2) /\
    cell_6 h x y ev w2 = (Ok v, w3) /\
    cell_6 h x y ev w3 = (Ok v, w4).
Proof.
  intros Hs Hm Hf.
  assert (forall n r, attempt ev n r = r) as Hat
      by (intros n r; unfold attempt; rewrite Hf; reflexivity).
  eexists _, _, _, _, _. split; [|split; [|split]].
  - rewrite cell_4_eq. cbv zeta. rewrite Hat, Hm. reflexivity.
  - rewrite cell_5_eq. cbv zeta. rewrite Hat, Hs, Hm by reflexivity. reflexivity.
  - erewrite cell_6_eq by (rewrite jit_store_advance; apply list_lookup_middle; reflexivity).
    cbv zeta. unfold Jit.lookup_or_compile. cbv zeta. cbn [Jit.cache]. rewrite lookup_insert_eq.
    rewrite Hat, Hs, Hm by reflexivity. reflexivity.
  - erewrite cell_6_eq
      by (rewrite !jit_store_advance, list_lookup_insert_eq
            by (rewrite length_app; cbn; lia); reflexivity).
    cbv zeta. unfold Jit.lookup_or_compile. cbv zeta. cbn [Jit.cache]. rewrite lookup_insert_eq.
    rewrite Hat, Hs, Hm by reflexivity. reflexivity.
Qed.

Lemma env_quiet_never_faults n : device_fault env_quiet n = None.
Proof. reflexivity. Qed.

Lemma three_cells_agree_witness :
  compile_sound (xla_compile env_quiet) /\
  exists w1 h w2 w3,
    cell_4 big big env_quiet world0 = (Ok (jnp.full (4096, 4096)%nat float32
                                                 (Float.of_Z float32 4096)), w1) /\
    cell_5 big big env_quiet w1 = (Ok (h, jnp.full (4096, 4096)%nat float32
                                                (Float.of_Z float32 4096)), w2) /\
    cell_6 h big big env_quiet w2 = (Ok (jnp.full (4096, 4096)%nat float32
                                               (Float.of_Z float32 4096)), w3) /\
    omap reused_here (events_between w2 w3) = [(h, signature_of [big; big])] /\
    jit_store w3 = jit_store w2.
Proof.
  split; [exact specialize_sound|].
  destruct (cells_succeed env_quiet world0 big big _ specialize_sound
              (matmul_ones 4096 4096 4096 (le_n 4096)) env_quiet_never_faults)
    as (w1 & h & w2 & w3 & _ & H4 & H5 & H6 & _).
  exists w1, h, w2, w3. split; [exact H4|]. split; [exact H5|]. split; [exact H6|].
  destruct (three_cells_agree env_quiet world0 big big _ w1 h _ w2 _ w3
              specialize_sound H4 H5 H6) as (_ & _ & _ & Hr & _ & Hst).
  split; [exact Hr|exact Hst].
Defined.



(** ** Every run, finished or not *)


(** ** The report and the values computed *)

Lemma run_stdout_ext ev ev' :
  platform ev = platform ev' ->
  (forall n, wall_clock ev n = wall_clock ev' n) ->
  (forall n, rss_bytes ev n = rss_bytes ev' n) ->
  run_stdout ev = run_stdout ev'.
Proof.
  intros Hp Hc Hr. unfold run_stdout. cbv zeta.
  rewrite Hp, !Hc, !Hr. reflexivity.
Qed.

(** X6. The report does not depend on what was computed: two runs that
    reach their end on machines with the same platform name, the same
    clock readings and the same memory readings print the same lines,
    whatever their compilers return.  The result [out] of a call is
    assigned and never looked at, so a compiler that returns a wrong array
    goes unnoticed. *)
Theorem report_ignores_values ev ev' g g' w w' :
  platform ev = platform ev' ->
  (forall n, wall_clock ev n = wall_clock ev' n) ->
  (forall n, rss_bytes ev n = rss_bytes ev' n) ->
  notebook ev world0 = (Ok g, w) ->
  notebook ev' world0 = (Ok g', w') ->
  stdout w = stdout w'.
Proof.
  intros Hp Hc Hr H H'.
  rewrite (notebook_stdout _ _ _ H), (notebook_stdout _ _ _ H').
  apply run_stdout_ext; assumption.
Qed.

Lemma notebook_careless :
  exists w,
    notebook env_careless world0 =
    (Ok {| g_x := x0; g_y := x0; g_jit_matmul := 0; g_out := x0 |}, w).
Proof.
  rewrite notebook_eq. unfold attempt. cbn [device_fault env_careless].
  rewrite matmul_x0. eexists. reflexivity.
Qed.

Lemma x0_is_not_product : x0 <> product.
Proof.
  intros H. apply (f_equal (fun a => entry a 0 0)) in H.
  unfold x0, product, jnp.ones in H.
  rewrite !entry_full in H by (cbn [fst snd]; unfold size; lia).
  vm_compute in H. discriminate H.
Qed.

(** The sound and the broken compiler, on machines alike otherwise: the
    results differ, the reports do not. *)
Lemma report_ignores_values_witness :
  exists w',
    notebook env_quiet world0 = (Ok final_globals, final_world env_quiet) /\
    notebook env_careless world0 =
      (Ok {| g_x := x0; g_y := x0; g_jit_matmul := 0; g_out := x0 |}, w') /\
    g_out final_globals <> x0 /\
    stdout (final_world env_quiet) = stdout w'.
Proof.
  destruct notebook_careless as [w' H']. exists w'.
  split; [exact notebook_quiet|]. split; [exact H'|].
  split; [exact (fun H => x0_is_not_product (eq_sym H))|].
  exact (report_ignores_values env_quiet env_careless _ _ _ _ eq_refl
           (fun _ => eq_refl) (fun _ => eq_refl) notebook_quiet H').
Defined.

(** ** The memory reading and the zero interval *)

Lemma round_aux_unsigned prec emax m e l :
  unsigned (binary_round_aux prec emax false m e l) = true.
Proof.
  unfold binary_round_aux.
  destruct (shr_fexp prec emax m e l) as [mrs' e'].
  destruct (shr_fexp prec emax _ e' loc_Exact) as [mrs'' e''].
  destruct (shr_m mrs''); [reflexivity| |reflexivity].
  destruct (Z.leb e'' (emax - prec)); reflexivity.
Qed.

Lemma of_Z_unsigned d z : (0 <= z)%Z -> unsigned (Float.of_Z d z) = true.
Proof.
  intros Hz. destruct z as [|p|p]; [reflexivity| |lia].
  unfold Float.of_Z, binary_normalize, binary_round.
  destruct (shl_align p 0 _) as [mz ez]. apply round_aux_unsigned.
Qed.

Lemma div_unsigned d a b :
  unsigned a = true -> unsigned b = true -> unsigned (Float.div d a b) = true.
Proof.
  unfold Float.div.
  destruct a as [[]|[]| |[] ma ea], b as [[]|[]| |[] mb eb];
    try discriminate; try reflexivity.
  intros _ _. cbn [SFdiv xorb].
  destruct (SFdiv_core_binary _ _ _ _ _ _) as [[mz ez] lz].
  apply round_aux_unsigned.
Qed.

Lemma unsigned_not_negative f : unsigned f = true -> Float.is_negative f = false.
Proof. destruct f as [[]|[]| |[] m e]; try discriminate; reflexivity. Qed.

(** X7. [get_memory_usage_mb] takes one memory reading and returns it
    divided twice by 1024; for a reading that is not negative the value it
    returns is never negative (its sign bit is clear), so a negative figure
    in a memory line always comes from the subtraction. *)
Theorem memory_usage_not_negative ev w :
  (0 <= rss_bytes ev (rss_reads w))%Z ->
  exists v w',
    get_memory_usage_mb ev w = (Ok v, w') /\
    v = megabytes (rss_bytes ev (rss_reads w)) /\
    unsigned v = true /\
    Float.is_negative v = false /\
    events_between w w' = [EvRss (rss_bytes ev (rss_reads w))] /\
    rss_reads w' = S (rss_reads w) /\
    time_reads w' = time_reads w.
Proof.
  intros Hr. eexists _, _. split; [reflexivity|]. split; [reflexivity|].
  assert (unsigned (megabytes (rss_bytes ev (rss_reads w))) = true) as Hu.
  { unfold megabytes, py_truediv, py_int_truediv.
    apply div_unsigned; [apply div_unsigned|];
      apply of_Z_unsigned; lia. }
  split; [exact Hu|]. split; [apply unsigned_not_negative, Hu|].
  split; [|split; reflexivity].
  unfold events_between. cbn [log length]. rewrite Nat.sub_succ_l, Nat.sub_diag by lia.
  reflexivity.
Qed.

Lemma memory_usage_not_negative_witness :
  (0 <= rss_bytes env_quiet (rss_reads world0))%Z /\
  exists v w',
    get_memory_usage_mb env_quiet world0 = (Ok v, w') /\
    v = megabytes (100 * MiB) /\
    Float.is_negative v = false.
Proof.
  assert (0 <= rss_bytes env_quiet (rss_reads world0))%Z as H by (cbn; unfold MiB; lia).
  split; [exact H|].
  destruct (memory_usage_not_negative env_quiet world0 H)
    as (v & w' & Hg & Hv & _ & Hn & _).
  exists v, w'. split; [exact Hg|]. split; [exact Hv|exact Hn].
Defined.

Lemma sub_self d a : finite_float a = true -> Float.sub d a a = Float.zero.
Proof.
  unfold Float.sub. destruct a as [[]|[]| |s m e]; try discriminate; try reflexivity.
  intros _. cbn [SFsub]. rewrite Z.sub_diag. reflexivity.
Qed.

(** X8. When the two clock readings of a measurement are the same finite
    float (a clock too coarse for the call), the time line of that
    measurement carries exactly 0.0, with the sign bit clear. *)
Theorem zero_interval_prints_zero ev g w k :
  notebook ev world0 = (Ok g, w) ->
  (k < 3)%nat ->
  wall_clock ev (2 * k + 1) = wall_clock ev (2 * k) ->
  finite_float (wall_clock ev (2 * k)) = true ->
  exists label,
    stdout w !! (2 * k + 1)%nat = Some [PStr label; PFloat Float.zero; PStr "seconds"].
Proof.
  intros H Hk Heq Hfin. rewrite (notebook_stdout _ _ _ H).
  pose proof (sub_self float64 _ Hfin) as Hz. fold (py_sub (wall_clock ev (2 * k)) (wall_clock ev (2 * k))) in Hz.
  rewrite <- Heq in Hz at 1.
  destruct k as [|[|[|k]]]; [| | |lia]; eexists; cbn [run_stdout lookup list_lookup];
    cbv zeta; rewrite <- Hz; reflexivity.
Qed.

Lemma notebook_coarse :
  notebook env_coarse world0 = (Ok final_globals, final_world env_coarse).
Proof. apply notebook_succeeds; [repeat split | exact specialize_sound]. Qed.

Lemma zero_interval_prints_zero_witness :
  notebook env_coarse world0 = (Ok final_globals, final_world env_coarse) /\
  wall_clock env_coarse 3 = wall_clock env_coarse 2 /\
  finite_float (wall_clock env_coarse 2) = true /\
  exists label,
    stdout (final_world env_coarse) !! 3%nat =
    Some [PStr label; PFloat Float.zero; PStr "seconds"].
Proof.
  split; [exact notebook_coarse|]. split; [reflexivity|]. split; [reflexivity|].
  exact (zero_interval_prints_zero env_coarse _ _ 1 notebook_coarse
           ltac:(lia) eq_refl eq_refl).
Defined.
